(** * br_documents: the CPF value type

    A shallow embedding of [br_documents/__init__.py] (Python 2): the
    class [CPF], its constructor, the [is_valid] property and the
    accessors, followed by the properties of the natural-language
    description that the code is checked against. *)

From Stdlib Require Import ZArith List String Ascii Bool Lia.
From Stdlib Require Import Decimal DecimalString DecimalFacts DecimalPos.
Import ListNotations.
Local Open Scope string_scope.
Local Open Scope list_scope.
Local Open Scope Z_scope.

(** ** Exceptions and results *)

(** The exceptions the module can raise.  [InvalidCPF] is the module's own
    subclass of [ValueError] and carries one of the texts of
    [CPF.error_messages]; the others are Python's built-in ones. *)
Inductive exn : Type :=
| InvalidCPF (msg : string)
| ValueError (msg : string)
| UnicodeError
| AttributeError
| IndexError.

Inductive result (A : Type) : Type :=
| Ok (a : A)
| Raise (e : exn).
Arguments Ok {A} a.
Arguments Raise {A} e.

Definition bind {A B : Type} (m : result A) (k : A -> result B) : result B :=
  match m with
  | Ok a => k a
  | Raise e => Raise e
  end.

Notation "x <- m ;; k" := (bind m (fun x => k))
  (at level 61, m at next level, right associativity).

Fixpoint mapM {A B : Type} (f : A -> result B) (l : list A) : result (list B) :=
  match l with
  | [] => Ok []
  | a :: l' => b <- f a ;; bs <- mapM f l' ;; Ok (b :: bs)
  end.

(** ** The Python built-ins the module relies on *)

Module Py.

(** [len] of a list, as an integer. *)
Definition len {A : Type} (l : list A) : Z := Z.of_nat (List.length l).

(** [range(a, b)]. *)
Definition range (a b : Z) : list Z :=
  map (fun k => a + Z.of_nat k) (seq 0 (Z.to_nat (b - a))).

(** [enumerate(l)]: the elements paired with their 0-based position. *)
Definition enumerate {A : Type} (l : list A) : list (Z * A) :=
  combine (map Z.of_nat (seq 0 (List.length l))) l.

(** [sum(l)]: a left fold of [+] from 0. *)
Definition sum (l : list Z) : Z := fold_left Z.add l 0.

(** [str(n)] / [unicode(n)] of an integer: its decimal form, with a
    leading minus sign when negative. *)
Definition str_int (n : Z) : string := NilZero.string_of_int (Z.to_int n).

(** [s * n] on strings. *)
Fixpoint str_mul (s : string) (n : nat) : string :=
  match n with
  | O => ""
  | S k => (s ++ str_mul s k)%string
  end.

(** [str(l)] of a list of integers: ["[1, 2, 3]"]. *)
Definition str_list (l : list Z) : string :=
  ("[" ++ concat ", " (map str_int l) ++ "]")%string.

(** Code points below 128: what the implicit ASCII codec of Python 2
    accepts. *)
Definition is_ascii (c : ascii) : bool := (nat_of_ascii c <? 128)%nat.

Definition ascii_only (s : string) : bool :=
  forallb is_ascii (list_ascii_of_string s).

Definition is_digit_char (c : ascii) : bool :=
  ((48 <=? nat_of_ascii c) && (nat_of_ascii c <=? 57))%nat.

(** [s.isdigit()] on ASCII text: at least one character, and all of
    them decimal digits. *)
Definition isdigit (s : string) : bool :=
  match s with
  | EmptyString => false
  | _ => forallb is_digit_char (list_ascii_of_string s)
  end.

(** [int(c)] for a one-character string. *)
Definition int_char (c : ascii) : result Z :=
  if is_digit_char c then Ok (Z.of_nat (nat_of_ascii c) - 48)
  else Raise (ValueError "invalid literal for int() with base 10").

(** Slice bounds: a negative bound counts from the end, and every bound
    is clipped to the sequence. *)
Definition clip (n i : Z) : Z :=
  if i <? 0 then Z.max 0 (n + i) else Z.min i n.

Definition bounds (n : Z) (lo hi : option Z) : nat * nat :=
  let a := match lo with Some i => clip n i | None => 0 end in
  let b := match hi with Some i => clip n i | None => n end in
  (Z.to_nat a, Z.to_nat (b - a)).

(** [l[lo:hi]] on lists (a fresh list). *)
Definition slice {A : Type} (l : list A) (lo hi : option Z) : list A :=
  let '(a, k) := bounds (len l) lo hi in firstn k (skipn a l).

(** [s[lo:hi]] on strings. *)
Definition str_slice (s : string) (lo hi : option Z) : string :=
  let '(a, k) := bounds (Z.of_nat (String.length s)) lo hi in substring a k s.

(** [l[i]] on lists: positions [0 .. len-1], or [-len .. -1] counted
    from the end; anything else raises [IndexError]. *)
Definition getitem (l : list Z) (i : Z) : result Z :=
  let j := if i <? 0 then i + len l else i in
  if (0 <=? j) && (j <? len l) then Ok (nth (Z.to_nat j) l 0)
  else Raise IndexError.

(** [a == b] on lists of integers. *)
Fixpoint list_eqb (a b : list Z) : bool :=
  match a, b with
  | [], [] => true
  | x :: a', y :: b' => (x =? y) && list_eqb a' b'
  | _, _ => false
  end.

(** [x in l] for a string [x] and a list of strings [l]. *)
Definition str_in (x : string) (l : list string) : bool :=
  existsb (String.eqb x) l.

End Py.

(** ** The class [CPF] *)

Module CPF.

(** An instance: the attribute [cpf], a list of integers once the
    constructor has returned. *)
Record t : Type := Build { cpf : list Z }.

(** Elements of a list or tuple handed to the constructor: integers or
    pieces of text. *)
Inductive elem : Type :=
| EInt (n : Z)
| EStr (s : string).

(** Python values as the module sees them: what the constructor may be
    given and what an instance may be compared with. *)
Inductive value : Type :=
| VInt (n : Z)
| VStr (s : string)
| VSeq (l : list elem)
| VNone
| VCPF (c : t).

Inductive error_key : Type := invalid_cpf | only_digits | max_digits.

Definition error_messages (k : error_key) : string :=
  match k with
  | invalid_cpf => "This CPF is invalid."
  | only_digits =>
      "CPF requires only digits. You can use '.' and '-'in long format values."
  | max_digits => "CPF requires 11 digits or 14 characters"
  end.

(** [x not in ('-', '.')]; an integer is never equal to a string. *)
Definition not_separator (x : elem) : bool :=
  match x with
  | EInt _ => true
  | EStr s => negb (Py.str_in s ["-"; "."])
  end.

(** [str(x)] of an element. *)
Definition str_elem (x : elem) : string :=
  match x with
  | EInt n => Py.str_int n
  | EStr s => s
  end.

(** [''.join([str(x) for x in cpf if x not in ('-', '.')])].  The module
    has [unicode_literals] on, so the result is unicode text: a piece
    holding a character outside ASCII makes [str(x)] (unicode piece) or
    the join (byte-string piece) raise a [UnicodeError]. *)
Definition join_seq (l : list elem) : result string :=
  let parts := map str_elem (filter not_separator l) in
  if forallb Py.ascii_only parts then Ok (concat "" parts)
  else Raise UnicodeError.

(** Iterating over a string yields its characters as one-character
    strings. *)
Definition chars (s : string) : list elem :=
  map (fun c => EStr (String c "")) (list_ascii_of_string s).

(** The first statement of [__init__]: the text that the checks are run
    on.  A value that is neither a sequence, a string nor an integer
    leaves the class attribute [cpf = None] in place, and [None] has no
    [isdigit]. *)
Definition normalize (raw : value) : result string :=
  match raw with
  | VSeq l => join_seq l
  | VStr s => join_seq (chars s)
  | VInt n => Ok (Py.str_int n)
  | VNone | VCPF _ => Raise AttributeError
  end.

(** The comprehension [map(lambda x: str(x)*11, range(0,10))]. *)
Definition invalid_cpfs : list string :=
  map (fun x => Py.str_mul (Py.str_int x) 11) (Py.range 0 10).

(** One verification digit, from the working list [cpf]. *)
Definition next_digit (cpf : list Z) : Z :=
  let r :=
    Py.sum (map (fun '(i, v) => (Py.len cpf + 1 - i) * v) (Py.enumerate cpf))
    mod 11 in
  if r >? 1 then 11 - r else 0.

(** [while len(cpf) < 11: ... cpf.append(f)], with the number of
    iterations still allowed as [fuel]. *)
Fixpoint extend (fuel : nat) (cpf : list Z) : list Z :=
  match fuel with
  | O => cpf
  | S k =>
      if Py.len cpf <? 11 then extend k (cpf ++ [next_digit cpf]) else cpf
  end.

(** The loop appends one element per iteration, so [11 - len(cpf)]
    iterations reach its exit. *)
Definition digits_loop (cpf : list Z) : list Z :=
  extend (11 - List.length cpf) cpf.

(** The property [is_valid]. *)
Definition is_valid (self : t) : result bool :=
  match cpf self with
  | [] => Raise (ValueError "Where is the cpf?")
  | _ =>
      if Py.str_in (Py.str_list (cpf self)) invalid_cpfs
      then Raise (InvalidCPF (error_messages invalid_cpf))
      else
        let cpf' := digits_loop (Py.slice (cpf self) None (Some 9)) in
        Ok (Py.list_eqb cpf' (cpf self))
  end.

(** The constructor: [Ok self] when it returns, [Raise e] when it
    raises. *)
Definition __init__ (raw : value) : result t :=
  s <- normalize raw ;;
  if negb (Py.isdigit s) then Raise (InvalidCPF (error_messages only_digits))
  else if negb (String.length s =? 11)%nat
  then Raise (InvalidCPF (error_messages max_digits))
  else
    ds <- mapM Py.int_char (list_ascii_of_string s) ;;
    let self := Build ds in
    v <- is_valid self ;;
    if negb v then Raise (InvalidCPF (error_messages invalid_cpf))
    else Ok self.

Definition __unicode__ (self : t) : string :=
  concat "" (map Py.str_int (cpf self)).

Definition __str__ (self : t) : string := __unicode__ self.

Definition __repr__ (self : t) : string :=
  ("<CPF: " ++ __str__ self ++ ">")%string.

Definition __int__ (self : t) : result Z :=
  Raise (ValueError
    "CPF cant be represented as integer because of leading zeroes").

Definition __getitem__ (self : t) (i : Z) : result Z :=
  Py.getitem (cpf self) i.

Definition __eq__ (self : t) (other : value) : bool :=
  match other with
  | VCPF o => Py.list_eqb (cpf self) (cpf o)
  | _ => false
  end.

Definition __len__ (self : t) : Z := 11.

Definition __nonzero__ (self : t) : bool := true.

Definition formated (self : t) : string :=
  let cpf := __str__ self in
  concat "" [Py.str_slice cpf None (Some 3); ".";
             Py.str_slice cpf (Some 3) (Some 6); ".";
             Py.str_slice cpf (Some 6) (Some 9); "-";
             Py.str_slice cpf (Some 9) None].

End CPF.

(** The three kinds of rejection named by the description. *)
Definition OnlyDigits : exn := InvalidCPF (CPF.error_messages CPF.only_digits).
Definition MaxDigits : exn := InvalidCPF (CPF.error_messages CPF.max_digits).
Definition InvalidIdentifier : exn :=
  InvalidCPF (CPF.error_messages CPF.invalid_cpf).

(** ** The check-digit rule as the description words it *)

Module Spec.

(** The digit a decimal character stands for. *)
Definition digit_value (c : ascii) : Z := Z.of_nat (nat_of_ascii c) - 48.

(** The digit sequence of a normalized string. *)
Definition digits (s : string) : list Z :=
  map digit_value (list_ascii_of_string s).

(** Weight of 0-indexed position [i] in a working sequence of length [n]. *)
Definition weight (n i : nat) : Z := Z.of_nat n + 1 - Z.of_nat i.

(** The sum over all positions of weight times value. *)
Definition weighted_sum (w : list Z) : Z :=
  let n := List.length w in
  fold_right Z.add 0 (map (fun i => weight n i * nth i w 0) (seq 0 n)).

(** Check digit: [0] if [r <= 1], else [11 - r]. *)
Definition check_digit (w : list Z) : Z :=
  let r := weighted_sum w mod 11 in
  if r <=? 1 then 0 else 11 - r.

(** One iteration: append the check digit to the working sequence. *)
Definition step (w : list Z) : list Z := w ++ [check_digit w].

(** The two iterations, from the first nine digits. *)
Definition derive (first9 : list Z) : list Z := step (step first9).

(** The display shape: three digits, a dot, three digits, a dot, three
    digits, a dash, two digits. *)
Definition shape (s : string) : bool :=
  match list_ascii_of_string s with
  | [a; b; c; p; d; e; f; q; g; h; i; r; j; k] =>
      forallb Py.is_digit_char [a; b; c; d; e; f; g; h; i; j; k]
      && Ascii.eqb p "." && Ascii.eqb q "." && Ascii.eqb r "-"
  | _ => false
  end.

(** Removal of the separators ['.'] and ['-']. *)
Definition strip (s : string) : string :=
  string_of_list_ascii
    (filter (fun c => negb (Ascii.eqb c "." || Ascii.eqb c "-"))
            (list_ascii_of_string s)).

(** The normalized string of an argument, as characters and before any
    question of encoding: the decimal text of an integer; for a string or
    a sequence, the pieces other than ['-'] and ['.'], joined.  An
    argument of another kind has none. *)
Definition normalized (raw : CPF.value) : option string :=
  match raw with
  | CPF.VInt n => Some (Py.str_int n)
  | CPF.VStr s =>
      Some (concat ""
              (map CPF.str_elem (filter CPF.not_separator (CPF.chars s))))
  | CPF.VSeq l =>
      Some (concat "" (map CPF.str_elem (filter CPF.not_separator l)))
  | CPF.VNone | CPF.VCPF _ => None
  end.

End Spec.

(** ** Facts about the built-ins *)

Section Builtins.

Lemma digit_char_cases (c : ascii) :
  Py.is_digit_char c = true ->
  Py.is_ascii c = true /\
  Ascii.eqb c "." = false /\ Ascii.eqb c "-" = false /\
  0 <= Spec.digit_value c <= 9 /\
  Py.str_int (Spec.digit_value c) = String c "" /\
  Py.int_char c = Ok (Spec.digit_value c).
Proof.
  destruct c as [[] [] [] [] [] [] [] []]; intros H;
    try discriminate H; vm_compute; intuition congruence.
Qed.

Lemma isdigit_forallb (s : string) :
  Py.isdigit s = true ->
  forallb Py.is_digit_char (list_ascii_of_string s) = true.
Proof. destruct s; simpl; [discriminate | trivial]. Qed.

Lemma length_list_ascii (s : string) :
  List.length (list_ascii_of_string s) = String.length s.
Proof. induction s; simpl; congruence. Qed.

Lemma length_digits (s : string) :
  List.length (Spec.digits s) = String.length s.
Proof. unfold Spec.digits. now rewrite length_map, length_list_ascii. Qed.

Lemma digits_range (s : string) :
  forallb Py.is_digit_char (list_ascii_of_string s) = true ->
  Forall (fun d => 0 <= d <= 9) (Spec.digits s).
Proof.
  unfold Spec.digits. induction s as [|c s IH]; simpl; intros H.
  - constructor.
  - apply andb_true_iff in H as [Hc Hs]. constructor; auto.
    apply digit_char_cases, Hc.
Qed.

(** [map(int, s)] succeeds on a string of digits and yields its digit
    sequence. *)
Lemma mapM_int_char (s : string) :
  forallb Py.is_digit_char (list_ascii_of_string s) = true ->
  mapM Py.int_char (list_ascii_of_string s) = Ok (Spec.digits s).
Proof.
  unfold Spec.digits. induction s as [|c s IH]; simpl; intros H.
  - reflexivity.
  - apply andb_true_iff in H as [Hc Hs].
    destruct (digit_char_cases c Hc) as (_ & _ & _ & _ & _ & ->).
    simpl. rewrite (IH Hs). reflexivity.
Qed.

(** Joining the decimal forms of the digits of a digit string gives the
    string back. *)
Lemma concat_str_digits (s : string) :
  forallb Py.is_digit_char (list_ascii_of_string s) = true ->
  concat "" (map Py.str_int (Spec.digits s)) = s.
Proof.
  unfold Spec.digits. induction s as [|c s IH]; simpl; intros H.
  - reflexivity.
  - apply andb_true_iff in H as [Hc Hs].
    destruct (digit_char_cases c Hc) as (_ & _ & _ & _ & -> & _).
    specialize (IH Hs).
    destruct (list_ascii_of_string s) eqn:E; simpl in *.
    + destruct s; [reflexivity | discriminate E].
    + rewrite IH. reflexivity.
Qed.

Lemma list_eqb_eq (a b : list Z) : Py.list_eqb a b = true <-> a = b.
Proof.
  revert b. induction a as [|x a IH]; destruct b as [|y b]; simpl;
    try (split; [discriminate | discriminate]); try tauto.
  rewrite andb_true_iff, Z.eqb_eq, IH.
  split; [intros [-> ->]; reflexivity | intros E; inversion E; auto].
Qed.

(** The text of a list always opens with a bracket, so it is never one
    of the eleven-fold repeated digits. *)
Lemma str_list_not_invalid (l : list Z) :
  Py.str_in (Py.str_list l) CPF.invalid_cpfs = false.
Proof. reflexivity. Qed.

End Builtins.

(** ** Decimal text of integers *)

Section DecimalText.

Lemma of_uint_acc_lower (d : uint) (acc : positive) :
  Z.pos acc * 10 ^ Z.of_nat (nb_digits d) <= Z.pos (Pos.of_uint_acc d acc).
Proof.
  revert acc. induction d; intros acc; cbn [Pos.of_uint_acc nb_digits];
    try (rewrite Nat2Z.inj_succ, Z.pow_succ_r by lia;
         match goal with |- _ <= Z.pos (Pos.of_uint_acc _ ?a) =>
           specialize (IHd a) end;
         pose proof (Z.pow_pos_nonneg 10 (Z.of_nat (nb_digits d)) ltac:(lia) ltac:(lia));
         nia).
  simpl. lia.
Qed.

Lemma to_uint_unorm (p : positive) : unorm (Pos.to_uint p) = Pos.to_uint p.
Proof.
  pose proof (Unsigned.to_of (Pos.to_uint p)) as H.
  rewrite Unsigned.of_to in H. symmetry. exact H.
Qed.

Lemma nb_digits_to_uint (p : positive) (k : nat) :
  Z.pos p < 10 ^ Z.of_nat k -> (nb_digits (Pos.to_uint p) <= k)%nat.
Proof.
  intros Hp.
  pose proof (Unsigned.of_to p) as Hof.
  pose proof (to_uint_unorm p) as Hn.
  destruct (Pos.to_uint p) as [|l|l|l|l|l|l|l|l|l|l] eqn:E;
    cbn [nb_digits Pos.of_uint] in *.
  1:{ lia. }
  1:{ rewrite unorm_D0 in Hn. destruct l.
      1:{ cbn. destruct k; [simpl in Hp; lia | lia]. }
      all: exfalso;
        match type of Hn with unorm ?u = _ =>
          assert (u <> Nil) as Hu by discriminate;
          pose proof (nb_digits_unorm u Hu) as Hle; rewrite Hn in Hle;
          cbn [nb_digits] in Hle; lia end. }
  all: injection Hof as Hof;
    match type of Hof with Pos.of_uint_acc _ ?a = _ =>
      pose proof (of_uint_acc_lower l a) as Hlow end;
    rewrite Hof in Hlow;
    destruct (Nat.le_gt_cases (S (nb_digits l)) k) as [|Hgt]; [assumption|];
    exfalso;
    assert (10 ^ Z.of_nat k <= 10 ^ Z.of_nat (nb_digits l))
      by (apply Z.pow_le_mono_r; lia);
    lia.
Qed.

Lemma uint_text_digits (d : uint) :
  forallb Py.is_digit_char (list_ascii_of_string (NilEmpty.string_of_uint d))
  = true.
Proof. induction d; simpl; auto. Qed.

Lemma uint_text_length (d : uint) :
  String.length (NilEmpty.string_of_uint d) = nb_digits d.
Proof. induction d; simpl; auto. Qed.

Lemma str_int_pos (p : positive) :
  Py.str_int (Z.pos p) = NilEmpty.string_of_uint (Pos.to_uint p).
Proof.
  unfold Py.str_int. simpl.
  pose proof (Unsigned.to_uint_nonnil p) as H.
  destruct (Pos.to_uint p); [contradiction | reflexivity ..].
Qed.

(** A natural number prints as a non-empty string of digits. *)
Lemma isdigit_str_int (n : Z) : 0 <= n -> Py.isdigit (Py.str_int n) = true.
Proof.
  intros H. destruct n as [|p|p]; [reflexivity | | lia].
  rewrite str_int_pos.
  pose proof (uint_text_digits (Pos.to_uint p)) as Hd.
  pose proof (Unsigned.to_uint_nonnil p) as Hn.
  unfold Py.isdigit.
  destruct (Pos.to_uint p); [contradiction | exact Hd ..].
Qed.

(** A negative one prints with a minus sign in front. *)
Lemma isdigit_str_int_neg (n : Z) : n < 0 -> Py.isdigit (Py.str_int n) = false.
Proof. intros H. destruct n as [|p|p]; [lia | lia | reflexivity]. Qed.

(** A natural number below [10 ^ k] prints in at most [k] characters. *)
Lemma length_str_int (n : Z) (k : nat) :
  0 <= n < 10 ^ Z.of_nat (S k) -> (String.length (Py.str_int n) <= S k)%nat.
Proof.
  intros [H0 Hk]. destruct n as [|p|p]; [simpl; lia | | lia].
  rewrite str_int_pos, uint_text_length.
  now apply nb_digits_to_uint.
Qed.

End DecimalText.

(** ** The verification digits: the code against the worded rule *)

Section CheckDigits.

Lemma weighted_terms (N : Z) (w : list Z) (k : nat) :
  map (fun '(i, v) => (N + 1 - i) * v)
      (combine (map Z.of_nat (seq k (List.length w))) w)
  = map (fun i => (N + 1 - Z.of_nat i) * nth (i - k) w 0)
        (seq k (List.length w)).
Proof.
  revert k. induction w as [|x w IH]; intros k; simpl.
  - reflexivity.
  - rewrite Nat.sub_diag. f_equal. rewrite IH.
    apply map_ext_in. intros i Hi. apply in_seq in Hi.
    replace (i - k)%nat with (S (i - S k)) by lia. reflexivity.
Qed.

Lemma sum_fold_right (l : list Z) : Py.sum l = fold_right Z.add 0 l.
Proof.
  unfold Py.sum. apply fold_symmetric; intros; lia.
Qed.

Lemma sum_enumerate (w : list Z) :
  Py.sum (map (fun '(i, v) => (Py.len w + 1 - i) * v) (Py.enumerate w))
  = Spec.weighted_sum w.
Proof.
  unfold Py.enumerate, Spec.weighted_sum, Spec.weight, Py.len.
  rewrite sum_fold_right, weighted_terms. f_equal.
  apply map_ext. intros i. now rewrite Nat.sub_0_r.
Qed.

Lemma next_digit_spec (w : list Z) : CPF.next_digit w = Spec.check_digit w.
Proof.
  unfold CPF.next_digit, Spec.check_digit. rewrite sum_enumerate.
  destruct (Z.gtb_spec (Spec.weighted_sum w mod 11) 1),
           (Z.leb_spec (Spec.weighted_sum w mod 11) 1); lia.
Qed.

Lemma check_digit_range (w : list Z) : 0 <= Spec.check_digit w <= 9.
Proof.
  unfold Spec.check_digit.
  pose proof (Z.mod_pos_bound (Spec.weighted_sum w) 11 ltac:(lia)).
  destruct (Z.leb_spec (Spec.weighted_sum w mod 11) 1); lia.
Qed.

(** The loop leaves with its condition false whatever list it starts
    from: the iterations allowed by [digits_loop] are enough. *)
Lemma extend_exit (fuel : nat) (cpf : list Z) :
  (11 - List.length cpf <= fuel)%nat -> 11 <= Py.len (CPF.extend fuel cpf).
Proof.
  revert cpf. induction fuel as [|k IH]; intros cpf H; simpl.
  - unfold Py.len. lia.
  - destruct (Z.ltb_spec (Py.len cpf) 11) as [Hlt | Hge]; [| exact Hge].
    apply IH. rewrite length_app. cbn [List.length]. lia.
Qed.

Lemma digits_loop_exit (cpf : list Z) : 11 <= Py.len (CPF.digits_loop cpf).
Proof. apply extend_exit. lia. Qed.

(** More iterations allowed change nothing. *)
Lemma extend_enough (fuel : nat) (cpf : list Z) :
  (11 - List.length cpf <= fuel)%nat ->
  CPF.extend fuel cpf = CPF.digits_loop cpf.
Proof.
  unfold CPF.digits_loop. revert cpf.
  induction fuel as [|k IH]; intros cpf H.
  - replace (11 - List.length cpf)%nat with 0%nat by lia. reflexivity.
  - cbn [CPF.extend].
    destruct (Z.ltb_spec (Py.len cpf) 11) as [Hlt | Hge]; unfold Py.len in *.
    + rewrite IH by (rewrite length_app; cbn [List.length]; lia).
      replace (11 - List.length cpf)%nat
        with (S (11 - List.length (cpf ++ [CPF.next_digit cpf])))
        by (rewrite length_app; cbn [List.length]; lia).
      cbn [CPF.extend]. unfold Py.len.
      apply Z.ltb_lt in Hlt. now rewrite Hlt.
    + replace (11 - List.length cpf)%nat with 0%nat by lia. reflexivity.
Qed.

(** From nine digits the loop runs exactly twice. *)
Lemma digits_loop_spec (first9 : list Z) :
  List.length first9 = 9%nat -> CPF.digits_loop first9 = Spec.derive first9.
Proof.
  intros H. unfold CPF.digits_loop, Spec.derive, Spec.step.
  rewrite H. simpl. unfold Py.len.
  rewrite H. simpl. rewrite length_app, H. simpl.
  now rewrite !next_digit_spec.
Qed.

Lemma length_derive (first9 : list Z) :
  List.length (Spec.derive first9) = (List.length first9 + 2)%nat.
Proof.
  unfold Spec.derive, Spec.step. rewrite !length_app. simpl. lia.
Qed.

Lemma slice_first9 (l : list Z) :
  List.length l = 11%nat -> Py.slice l None (Some 9) = firstn 9 l.
Proof.
  intros H. unfold Py.slice, Py.bounds, Py.len. rewrite H. reflexivity.
Qed.

Lemma is_valid_spec (ds : list Z) :
  List.length ds = 11%nat ->
  CPF.is_valid (CPF.Build ds)
  = Ok (Py.list_eqb (Spec.derive (firstn 9 ds)) ds).
Proof.
  intros H. unfold CPF.is_valid. simpl CPF.cpf.
  destruct ds as [|d ds']; [discriminate H |].
  rewrite str_list_not_invalid, slice_first9 by exact H.
  rewrite digits_loop_spec; [reflexivity |].
  rewrite length_firstn, H. reflexivity.
Qed.

(** The derived sequence extends the first nine digits it is computed
    from. *)
Lemma firstn_derive (first9 : list Z) :
  List.length first9 = 9%nat -> firstn 9 (Spec.derive first9) = first9.
Proof.
  intros H. unfold Spec.derive, Spec.step.
  rewrite <- app_assoc, firstn_app.
  replace (9 - List.length first9)%nat with 0%nat by lia.
  rewrite firstn_O, List.app_nil_r, <- H. apply firstn_all.
Qed.

End CheckDigits.

(** ** The constructor *)

Section Constructor.

(** What [__init__] does with a normalized string of eleven digits. *)
Lemma init_eleven_digits (raw : CPF.value) (s : string) :
  CPF.normalize raw = Ok s ->
  Py.isdigit s = true ->
  String.length s = 11%nat ->
  CPF.__init__ raw =
    if Py.list_eqb (Spec.derive (firstn 9 (Spec.digits s))) (Spec.digits s)
    then Ok (CPF.Build (Spec.digits s))
    else Raise InvalidIdentifier.
Proof.
  intros Hn Hd Hl. unfold CPF.__init__. rewrite Hn. simpl.
  rewrite Hd, Hl. simpl.
  rewrite mapM_int_char by now apply isdigit_forallb. simpl.
  rewrite is_valid_spec by now rewrite length_digits. simpl.
  destruct (Py.list_eqb _ _); reflexivity.
Qed.

(** What a returned instance tells about the argument. *)
Lemma init_inv (raw : CPF.value) (c : CPF.t) :
  CPF.__init__ raw = Ok c ->
  exists s,
    CPF.normalize raw = Ok s /\ Py.isdigit s = true /\
    String.length s = 11%nat /\ c = CPF.Build (Spec.digits s) /\
    Spec.derive (firstn 9 (Spec.digits s)) = Spec.digits s.
Proof.
  intros H.
  destruct (CPF.normalize raw) as [s|e] eqn:Hn.
  2:{ unfold CPF.__init__ in H. rewrite Hn in H. discriminate H. }
  destruct (Py.isdigit s) eqn:Hd.
  2:{ unfold CPF.__init__ in H. rewrite Hn in H. simpl in H.
      rewrite Hd in H. discriminate H. }
  destruct (Nat.eqb_spec (String.length s) 11) as [Hl | Hl].
  2:{ unfold CPF.__init__ in H. rewrite Hn in H. simpl in H.
      rewrite Hd in H. simpl in H.
      apply Nat.eqb_neq in Hl. rewrite Hl in H. discriminate H. }
  rewrite (init_eleven_digits raw s Hn Hd Hl) in H.
  destruct (Py.list_eqb _ _) eqn:E; [| discriminate H].
  exists s. apply list_eqb_eq in E. inversion H. auto.
Qed.

Lemma constructed_length (raw : CPF.value) (c : CPF.t) :
  CPF.__init__ raw = Ok c -> List.length (CPF.cpf c) = 11%nat.
Proof.
  intros H. apply init_inv in H as (s & _ & _ & Hl & -> & _).
  simpl. now rewrite length_digits.
Qed.

Lemma constructed_range (raw : CPF.value) (c : CPF.t) :
  CPF.__init__ raw = Ok c -> Forall (fun d => 0 <= d <= 9) (CPF.cpf c).
Proof.
  intros H. apply init_inv in H as (s & _ & Hd & _ & -> & _).
  apply digits_range, isdigit_forallb, Hd.
Qed.

End Constructor.

(** ** Normalization of strings *)

Section Normalization.

Lemma concat_chars (s : string) :
  concat "" (map CPF.str_elem (CPF.chars s)) = s.
Proof.
  unfold CPF.chars. induction s as [|c s IH]; simpl.
  - reflexivity.
  - destruct (list_ascii_of_string s) eqn:E; simpl in *.
    + destruct s; [reflexivity | discriminate E].
    + now rewrite IH.
Qed.

Lemma filter_chars_digits (s : string) :
  forallb Py.is_digit_char (list_ascii_of_string s) = true ->
  filter CPF.not_separator (CPF.chars s) = CPF.chars s.
Proof.
  unfold CPF.chars. induction s as [|c s IH]; simpl; intros H.
  - reflexivity.
  - apply andb_true_iff in H as [Hc Hs].
    destruct (digit_char_cases c Hc) as (_ & Hdot & Hdash & _).
    unfold Py.str_in. simpl. rewrite Hdot, Hdash. simpl.
    now rewrite IH.
Qed.

Lemma ascii_chars_digits (s : string) :
  forallb Py.is_digit_char (list_ascii_of_string s) = true ->
  forallb Py.ascii_only (map CPF.str_elem (CPF.chars s)) = true.
Proof.
  unfold CPF.chars. induction s as [|c s IH]; simpl; intros H.
  - reflexivity.
  - apply andb_true_iff in H as [Hc Hs].
    destruct (digit_char_cases c Hc) as (Ha & _).
    unfold Py.ascii_only at 1. simpl. rewrite Ha. simpl. auto.
Qed.

(** A string of digits is its own normal form. *)
Lemma normalize_digit_string (s : string) :
  forallb Py.is_digit_char (list_ascii_of_string s) = true ->
  CPF.normalize (CPF.VStr s) = Ok s.
Proof.
  intros H. unfold CPF.normalize, CPF.join_seq.
  rewrite filter_chars_digits, ascii_chars_digits, concat_chars by exact H.
  reflexivity.
Qed.

Lemma ascii_only_app (a b : string) :
  Py.ascii_only (a ++ b) = Py.ascii_only a && Py.ascii_only b.
Proof.
  unfold Py.ascii_only. induction a as [|c a IH]; simpl.
  - reflexivity.
  - now rewrite IH, andb_assoc.
Qed.

Lemma ascii_only_concat (parts : list string) :
  forallb Py.ascii_only parts = true ->
  Py.ascii_only (concat "" parts) = true.
Proof.
  induction parts as [|x xs IH]; simpl; intros H.
  - reflexivity.
  - apply andb_true_iff in H as [Hx Hxs]. destruct xs as [|y ys].
    + exact Hx.
    + rewrite ascii_only_app, Hx. simpl. exact (IH Hxs).
Qed.

Lemma ascii_only_uint (d : uint) :
  Py.ascii_only (NilZero.string_of_uint d) = true.
Proof.
  assert (Py.ascii_only (NilEmpty.string_of_uint d) = true) as H
      by (unfold Py.ascii_only; induction d; simpl; auto).
  destruct d; [reflexivity | exact H ..].
Qed.

(** The normalized text never holds a character outside ASCII, which is
    what lets [isdigit] be read as a test for the digits 0-9. *)
Lemma normalize_ascii (raw : CPF.value) (s : string) :
  CPF.normalize raw = Ok s -> Py.ascii_only s = true.
Proof.
  assert (forall l, CPF.join_seq l = Ok s -> Py.ascii_only s = true) as J.
  { intros l. unfold CPF.join_seq.
    destruct (forallb Py.ascii_only _) eqn:E; [| discriminate].
    intros H. injection H as <-. now apply ascii_only_concat. }
  destruct raw as [n | t | l | | c]; simpl; try discriminate; eauto.
  intros H. injection H as <-. unfold Py.str_int.
  destruct n as [|p|p]; [reflexivity | apply ascii_only_uint |].
  simpl Z.to_int. cbn [NilZero.string_of_int].
  change (Py.ascii_only (String "-" ?x)) with (Py.ascii_only x).
  apply ascii_only_uint.
Qed.

Lemma forallb_digits_isdigit (s : string) :
  String.length s = 11%nat ->
  forallb Py.is_digit_char (list_ascii_of_string s) = true ->
  Py.isdigit s = true.
Proof. destruct s; [discriminate | trivial]. Qed.

Lemma error_kinds_distinct :
  OnlyDigits <> MaxDigits /\ OnlyDigits <> InvalidIdentifier /\
  MaxDigits <> InvalidIdentifier.
Proof. repeat split; discriminate. Qed.

End Normalization.

(** ** The described properties *)

(** C1. For a normalized input of eleven digits, the constructor returns
    exactly when the sequence derived from the first nine digits by the
    weighted-sum modulo-11 rule (run twice, on lengths 9 and 10, check
    digit 0 if [r <= 1] and [11 - r] otherwise) equals the input position
    by position, and raises the invalid-identifier error otherwise.  The
    list the code compares against is that derived sequence, of length 11,
    so the last two digits of an instance are determined by its first
    nine. *)
Theorem check_digits_decide_construction (raw : CPF.value) (s : string) :
  CPF.normalize raw = Ok s ->
  Py.isdigit s = true ->
  String.length s = 11%nat ->
  let ds := Spec.digits s in
  let derived := Spec.derive (firstn 9 ds) in
  List.length derived = 11%nat /\
  CPF.digits_loop (Py.slice ds None (Some 9)) = derived /\
  ((exists c, CPF.__init__ raw = Ok c) <->
   (forall i, (i < 11)%nat -> nth i derived 0 = nth i ds 0)) /\
  (forall c, CPF.__init__ raw = Ok c -> CPF.cpf c = ds) /\
  ((exists i, (i < 11)%nat /\ nth i derived 0 <> nth i ds 0) ->
   CPF.__init__ raw = Raise InvalidIdentifier) /\
  (forall raw' c c',
      CPF.__init__ raw = Ok c -> CPF.__init__ raw' = Ok c' ->
      firstn 9 (CPF.cpf c') = firstn 9 (CPF.cpf c) -> c' = c).
Proof.
  intros Hn Hd Hl ds derived.
  assert (List.length ds = 11%nat) as Hlen
      by (subst ds; now rewrite length_digits).
  assert (List.length derived = 11%nat) as Hlen'.
  { subst derived. rewrite length_derive, length_firstn, Hlen. reflexivity. }
  assert (derived = ds <->
          (forall i, (i < 11)%nat -> nth i derived 0 = nth i ds 0)) as Hpos.
  { split.
    - intros ->. reflexivity.
    - intros H. apply nth_ext with (d := 0) (d' := 0); [congruence |].
      intros i Hi. apply H. lia. }
  pose proof (init_eleven_digits raw s Hn Hd Hl) as Hinit.
  fold ds in Hinit. fold derived in Hinit.
  split; [exact Hlen' |]. split.
  { rewrite slice_first9 by exact Hlen. apply digits_loop_spec.
    rewrite length_firstn, Hlen. reflexivity. }
  split.
  { rewrite <- Hpos, <- list_eqb_eq. rewrite Hinit.
    destruct (Py.list_eqb derived ds); split; intros H;
      [reflexivity | eexists; reflexivity | destruct H; discriminate
      | discriminate]. }
  split.
  { intros c Hc. rewrite Hinit in Hc.
    destruct (Py.list_eqb derived ds); [| discriminate].
    inversion Hc. reflexivity. }
  split.
  { intros (i & Hi & Hne). rewrite Hinit.
    destruct (Py.list_eqb derived ds) eqn:E; [| reflexivity].
    apply list_eqb_eq in E. rewrite E in Hne. contradiction. }
  intros raw' c c' Hc Hc' Hfirst.
  apply init_inv in Hc as (s1 & _ & _ & _ & -> & E1).
  apply init_inv in Hc' as (s2 & _ & _ & _ & -> & E2).
  cbn [CPF.cpf] in Hfirst. f_equal. rewrite <- E1, <- E2. now rewrite Hfirst.
Qed.

Lemma check_digits_decide_construction_witness :
  List.length (Spec.derive (firstn 9 (Spec.digits "87234238115"))) = 11%nat /\
  CPF.digits_loop (Py.slice (Spec.digits "87234238115") None (Some 9))
  = Spec.derive (firstn 9 (Spec.digits "87234238115")) /\
  (exists c, CPF.__init__ (CPF.VInt 87234238115) = Ok c).
Proof.
  pose proof (check_digits_decide_construction
                (CPF.VInt 87234238115) "87234238115"
                eq_refl eq_refl eq_refl) as (H1 & H2 & H3 & _).
  split; [exact H1 |]. split; [exact H2 |].
  apply H3. intros i Hi.
  do 11 (destruct i as [|i]; [reflexivity |]). lia.
Defined.

(** C3. Round trip: a string of exactly eleven decimal digits that
    satisfies the check-digit rule is accepted by the constructor, and the
    string form of the instance is that string. *)
Theorem str_round_trip (s : string) :
  String.length s = 11%nat ->
  forallb Py.is_digit_char (list_ascii_of_string s) = true ->
  Spec.derive (firstn 9 (Spec.digits s)) = Spec.digits s ->
  exists c, CPF.__init__ (CPF.VStr s) = Ok c /\ CPF.__str__ c = s.
Proof.
  intros Hl Hd Hok. exists (CPF.Build (Spec.digits s)). split.
  - rewrite (init_eleven_digits (CPF.VStr s) s);
      [| now apply normalize_digit_string
       | now apply forallb_digits_isdigit | exact Hl].
    rewrite Hok.
    now rewrite (proj2 (list_eqb_eq (Spec.digits s) (Spec.digits s)) eq_refl).
  - apply concat_str_digits, Hd.
Qed.

Lemma str_round_trip_witness :
  exists c, CPF.__init__ (CPF.VStr "29057139332") = Ok c /\
            CPF.__str__ c = "29057139332".
Proof.
  apply (str_round_trip "29057139332"); reflexivity.
Defined.

(** C9. Every instance the constructor returns holds exactly eleven
    elements, each a decimal digit 0-9; [len] reports 11, which is the
    length of the stored list, the truth value is true, and the validity
    property evaluates to true. *)
Theorem constructed_invariant (raw : CPF.value) (c : CPF.t) :
  CPF.__init__ raw = Ok c ->
  List.length (CPF.cpf c) = 11%nat /\
  Forall (fun d => 0 <= d <= 9) (CPF.cpf c) /\
  CPF.__len__ c = 11 /\
  CPF.__len__ c = Py.len (CPF.cpf c) /\
  CPF.__nonzero__ c = true /\
  CPF.is_valid c = Ok true.
Proof.
  intros H. apply init_inv in H as (s & _ & Hd & Hl & -> & Hok).
  cbn [CPF.cpf]. unfold CPF.__len__, Py.len. rewrite length_digits, Hl.
  split; [reflexivity |]. split.
  { apply digits_range, isdigit_forallb, Hd. }
  split; [reflexivity |]. split; [reflexivity |]. split; [reflexivity |].
  rewrite is_valid_spec by now rewrite length_digits.
  rewrite Hok. f_equal. now apply list_eqb_eq.
Qed.

Lemma constructed_invariant_witness :
  CPF.__init__ (CPF.VInt 87234238115)
  = Ok (CPF.Build [8; 7; 2; 3; 4; 2; 3; 8; 1; 1; 5]) /\
  List.length [8; 7; 2; 3; 4; 2; 3; 8; 1; 1; 5] = 11%nat /\
  Forall (fun d => 0 <= d <= 9) [8; 7; 2; 3; 4; 2; 3; 8; 1; 1; 5] /\
  CPF.__len__ (CPF.Build [8; 7; 2; 3; 4; 2; 3; 8; 1; 1; 5]) = 11.
Proof.
  pose proof (constructed_invariant (CPF.VInt 87234238115)
                (CPF.Build [8; 7; 2; 3; 4; 2; 3; 8; 1; 1; 5]) eq_refl)
    as (H1 & H2 & H3 & _).
  exact (conj eq_refl (conj H1 (conj H2 H3))).
Defined.

(** C8. Conversion to an integer fails with an error for every instance
    the constructor returns, whether or not its digits start with zeros. *)
Theorem int_conversion_fails (raw : CPF.value) (c : CPF.t) :
  CPF.__init__ raw = Ok c ->
  exists msg, CPF.__int__ c = Raise (ValueError msg).
Proof. intros _. eexists. reflexivity. Qed.

Lemma int_conversion_fails_witness :
  CPF.__init__ (CPF.VStr "00000000191")
  = Ok (CPF.Build [0; 0; 0; 0; 0; 0; 0; 0; 1; 9; 1]) /\
  exists msg,
    CPF.__int__ (CPF.Build [0; 0; 0; 0; 0; 0; 0; 0; 1; 9; 1])
    = Raise (ValueError msg).
Proof.
  split; [reflexivity |].
  apply (int_conversion_fails (CPF.VStr "00000000191")). reflexivity.
Defined.

(** C10. A negative integer is rejected with the only-digits error, not
    with the length error: its decimal text starts with a minus sign, and
    the digit check comes first. *)
Theorem negative_int_only_digits (n : Z) :
  n < 0 ->
  CPF.__init__ (CPF.VInt n) = Raise OnlyDigits /\
  CPF.__init__ (CPF.VInt n) <> Raise MaxDigits.
Proof.
  intros H.
  assert (CPF.__init__ (CPF.VInt n) = Raise OnlyDigits) as E.
  { unfold CPF.__init__. simpl. now rewrite isdigit_str_int_neg. }
  split; [exact E |]. rewrite E. intros C. inversion C.
Qed.

Lemma negative_int_only_digits_witness :
  -12345678901 < 0 /\
  CPF.__init__ (CPF.VInt (-12345678901)) = Raise OnlyDigits.
Proof.
  split; [lia |].
  apply (negative_int_only_digits (-12345678901)). lia.
Defined.

(** C2, as the code behaves.  The guard against repeated digits compares
    the text of the digit list (which opens with a bracket) with the ten
    strings of eleven equal digits, so it never fires; each of these ten
    strings passes the arithmetic and the constructor returns an instance
    for it. *)
Theorem repeated_digits_accepted :
  (forall l, Py.str_in (Py.str_list l) CPF.invalid_cpfs = false) /\
  CPF.__init__ (CPF.VStr "11111111111")
  = Ok (CPF.Build [1; 1; 1; 1; 1; 1; 1; 1; 1; 1; 1]) /\
  Forall (fun s => exists c, CPF.__init__ (CPF.VStr s) = Ok c /\
                             CPF.__str__ c = s)
         CPF.invalid_cpfs.
Proof.
  split; [exact str_list_not_invalid |]. split; [reflexivity |].
  repeat (constructor;
          [eexists; split; [vm_compute; reflexivity | reflexivity] |]).
  constructor.
Qed.

(** *** The display form *)

Section Display.

Lemma eleven_chars (s : string) :
  String.length s = 11%nat ->
  exists a b c d e f g h i j k,
    s = String a (String b (String c (String d (String e (String f
          (String g (String h (String i (String j (String k "")))))))))).
Proof.
  intros H.
  do 11 (destruct s as [|? s]; [discriminate H |]).
  destruct s; [| discriminate H].
  repeat eexists.
Qed.

Lemma strip_digit (c : ascii) (s : string) :
  Py.is_digit_char c = true -> Spec.strip (String c s) = String c (Spec.strip s).
Proof.
  intros H. destruct (digit_char_cases c H) as (_ & Hdot & Hdash & _).
  unfold Spec.strip. cbn [list_ascii_of_string filter].
  rewrite Hdot, Hdash. reflexivity.
Qed.

Lemma strip_dot (s : string) : Spec.strip (String "." s) = Spec.strip s.
Proof. reflexivity. Qed.

Lemma strip_dash (s : string) : Spec.strip (String "-" s) = Spec.strip s.
Proof. reflexivity. Qed.

Lemma str_of_digits (s : string) :
  Py.isdigit s = true -> CPF.__str__ (CPF.Build (Spec.digits s)) = s.
Proof.
  intros H. unfold CPF.__str__, CPF.__unicode__. simpl.
  apply concat_str_digits, isdigit_forallb, H.
Qed.

End Display.

(** C4. For every instance the constructor returns, the display form has
    the shape DDD.DDD.DDD-DD, and with ['.'] and ['-'] removed it is the
    string form, which is eleven characters long. *)
Theorem formated_shape (raw : CPF.value) (c : CPF.t) :
  CPF.__init__ raw = Ok c ->
  Spec.shape (CPF.formated c) = true /\
  Spec.strip (CPF.formated c) = CPF.__str__ c /\
  String.length (CPF.__str__ c) = 11%nat /\
  Py.isdigit (CPF.__str__ c) = true.
Proof.
  intros H. apply init_inv in H as (s & _ & Hd & Hl & -> & _).
  unfold CPF.formated. rewrite (str_of_digits s Hd).
  pose proof (isdigit_forallb s Hd) as Hall.
  destruct (eleven_chars s Hl) as (a & b & c & d & e & f & g & h & i & j & k & ->).
  cbn [list_ascii_of_string forallb] in Hall.
  repeat (apply andb_true_iff in Hall as [? Hall]).
  change (Py.str_slice _ None (Some 3)) with (String a (String b (String c ""))).
  change (Py.str_slice _ (Some 3) (Some 6))
    with (String d (String e (String f ""))).
  change (Py.str_slice _ (Some 6) (Some 9))
    with (String g (String h (String i ""))).
  change (Py.str_slice _ (Some 9) None) with (String j (String k "")).
  cbn [concat append].
  split; [| split; [| split]].
  - unfold Spec.shape. cbn [list_ascii_of_string forallb].
    repeat match goal with
           | E : Py.is_digit_char _ = true |- _ => rewrite E; clear E
           end.
    reflexivity.
  - repeat first [ rewrite strip_digit by assumption
                 | rewrite strip_dot
                 | rewrite strip_dash ].
    reflexivity.
  - reflexivity.
  - exact Hd.
Qed.

Lemma formated_shape_witness :
  CPF.__init__ (CPF.VInt 29057139332)
  = Ok (CPF.Build [2; 9; 0; 5; 7; 1; 3; 9; 3; 3; 2]) /\
  CPF.formated (CPF.Build [2; 9; 0; 5; 7; 1; 3; 9; 3; 3; 2])
  = "290.571.393-32" /\
  Spec.shape (CPF.formated (CPF.Build [2; 9; 0; 5; 7; 1; 3; 9; 3; 3; 2]))
  = true /\
  Spec.strip (CPF.formated (CPF.Build [2; 9; 0; 5; 7; 1; 3; 9; 3; 3; 2]))
  = CPF.__str__ (CPF.Build [2; 9; 0; 5; 7; 1; 3; 9; 3; 3; 2]).
Proof.
  split; [reflexivity |]. split; [reflexivity |].
  pose proof (formated_shape (CPF.VInt 29057139332)
                (CPF.Build [2; 9; 0; 5; 7; 1; 3; 9; 3; 3; 2]) eq_refl)
    as (H1 & H2 & _).
  exact (conj H1 H2).
Defined.

(** C5. Equality is by digit sequence and ignores how the argument was
    written: two returned instances are equal exactly when their digits
    agree at each of the eleven positions, so the same normalized text
    gives equal instances, as for ["290.571.393-32"] and ["29057139332"];
    an instance is not equal to any value that is not an instance. *)
Theorem eq_structural (raw1 raw2 : CPF.value) (a b : CPF.t) :
  CPF.__init__ raw1 = Ok a ->
  CPF.__init__ raw2 = Ok b ->
  (CPF.__eq__ a (CPF.VCPF b) = true <->
   (forall i, (i < 11)%nat -> nth i (CPF.cpf a) 0 = nth i (CPF.cpf b) 0)) /\
  (forall s, CPF.normalize raw1 = Ok s -> CPF.normalize raw2 = Ok s ->
             CPF.__eq__ a (CPF.VCPF b) = true) /\
  (forall v, (forall c, v <> CPF.VCPF c) -> CPF.__eq__ a v = false) /\
  (exists c d,
      CPF.__init__ (CPF.VStr "290.571.393-32") = Ok c /\
      CPF.__init__ (CPF.VStr "29057139332") = Ok d /\
      CPF.__eq__ c (CPF.VCPF d) = true).
Proof.
  intros Ha Hb.
  pose proof (constructed_length raw1 a Ha) as La.
  pose proof (constructed_length raw2 b Hb) as Lb.
  split; [| split; [| split]].
  - unfold CPF.__eq__. rewrite list_eqb_eq. split.
    + intros ->. reflexivity.
    + intros H. apply nth_ext with (d := 0) (d' := 0); [congruence |].
      intros i Hi. apply H. lia.
  - intros s H1 H2.
    apply init_inv in Ha as (s1 & E1 & _ & _ & -> & _).
    apply init_inv in Hb as (s2 & E2 & _ & _ & -> & _).
    unfold CPF.__eq__. apply list_eqb_eq. simpl. congruence.
  - intros v Hv. destruct v; try reflexivity. now destruct (Hv c).
  - do 2 eexists. repeat split; vm_compute; reflexivity.
Qed.

Lemma eq_structural_witness :
  CPF.__init__ (CPF.VStr "290.571.393-32")
  = Ok (CPF.Build [2; 9; 0; 5; 7; 1; 3; 9; 3; 3; 2]) /\
  CPF.__init__ (CPF.VInt 29057139332)
  = Ok (CPF.Build [2; 9; 0; 5; 7; 1; 3; 9; 3; 3; 2]) /\
  CPF.__eq__ (CPF.Build [2; 9; 0; 5; 7; 1; 3; 9; 3; 3; 2])
             (CPF.VCPF (CPF.Build [2; 9; 0; 5; 7; 1; 3; 9; 3; 3; 2])) = true /\
  CPF.__eq__ (CPF.Build [2; 9; 0; 5; 7; 1; 3; 9; 3; 3; 2])
             (CPF.VStr "29057139332") = false.
Proof.
  split; [reflexivity |]. split; [reflexivity |].
  pose proof (eq_structural (CPF.VStr "290.571.393-32") (CPF.VInt 29057139332)
                (CPF.Build [2; 9; 0; 5; 7; 1; 3; 9; 3; 3; 2])
                (CPF.Build [2; 9; 0; 5; 7; 1; 3; 9; 3; 3; 2])
                eq_refl eq_refl) as (_ & H2 & H3 & _).
  split.
  - apply (H2 "29057139332"); reflexivity.
  - apply H3. intros c. discriminate.
Defined.

(** *** Indexed access *)

(** C6, as stated, fails at index -1: list indexing counts negative
    positions from the end, so the last digit comes back instead of an
    indexing error. *)
Lemma getitem_minus_one_counterexample :
  CPF.__init__ (CPF.VStr "87234238115")
  = Ok (CPF.Build [8; 7; 2; 3; 4; 2; 3; 8; 1; 1; 5]) /\
  ~ (0 <= -1 <= 10) /\
  CPF.__getitem__ (CPF.Build [8; 7; 2; 3; 4; 2; 3; 8; 1; 1; 5]) (-1) = Ok 5 /\
  CPF.__getitem__ (CPF.Build [8; 7; 2; 3; 4; 2; 3; 8; 1; 1; 5]) (-1)
  <> Raise IndexError.
Proof.
  split; [reflexivity |]. split; [lia |]. split; [reflexivity | discriminate].
Qed.

(** C6, amended.  On an instance the constructor returns, indexed access
    gives the digit at 0-based position [i] for [0 <= i <= 10], the digit
    at position [11 + i] for [-11 <= i <= -1], and fails with an indexing
    error for every other index, that is for [i >= 11] and [i < -11]. *)
Theorem getitem_bounds (raw : CPF.value) (c : CPF.t) (i : Z) :
  CPF.__init__ raw = Ok c ->
  (0 <= i <= 10 ->
   CPF.__getitem__ c i = Ok (nth (Z.to_nat i) (CPF.cpf c) 0) /\
   0 <= nth (Z.to_nat i) (CPF.cpf c) 0 <= 9) /\
  (-11 <= i <= -1 ->
   CPF.__getitem__ c i = Ok (nth (Z.to_nat (11 + i)) (CPF.cpf c) 0)) /\
  (11 <= i \/ i < -11 -> CPF.__getitem__ c i = Raise IndexError).
Proof.
  intros H.
  pose proof (constructed_length raw c H) as L.
  pose proof (constructed_range raw c H) as R.
  unfold CPF.__getitem__, Py.getitem, Py.len. rewrite L.
  change (Z.of_nat 11) with 11.
  split; [| split]; intros Hi.
  - destruct (Z.ltb_spec i 0); [lia |].
    destruct (Z.leb_spec 0 i); [| lia].
    destruct (Z.ltb_spec i 11); [| lia].
    split; [reflexivity |].
    rewrite Forall_forall in R. apply R, nth_In. lia.
  - destruct (Z.ltb_spec i 0); [| lia].
    destruct (Z.leb_spec 0 (i + 11)); [| lia].
    destruct (Z.ltb_spec (i + 11) 11); [| lia].
    now rewrite (Z.add_comm 11 i).
  - destruct (Z.ltb_spec i 0).
    + destruct (Z.leb_spec 0 (i + 11)); [lia | reflexivity].
    + destruct (Z.leb_spec 0 i); [| lia].
      destruct (Z.ltb_spec i 11); [lia | reflexivity].
Qed.

Lemma getitem_bounds_witness :
  CPF.__init__ (CPF.VInt 87234238115)
  = Ok (CPF.Build [8; 7; 2; 3; 4; 2; 3; 8; 1; 1; 5]) /\
  CPF.__getitem__ (CPF.Build [8; 7; 2; 3; 4; 2; 3; 8; 1; 1; 5]) 0 = Ok 8 /\
  CPF.__getitem__ (CPF.Build [8; 7; 2; 3; 4; 2; 3; 8; 1; 1; 5]) (-11) = Ok 8 /\
  CPF.__getitem__ (CPF.Build [8; 7; 2; 3; 4; 2; 3; 8; 1; 1; 5]) 11
  = Raise IndexError /\
  CPF.__getitem__ (CPF.Build [8; 7; 2; 3; 4; 2; 3; 8; 1; 1; 5]) (-12)
  = Raise IndexError.
Proof.
  split; [reflexivity |].
  pose proof (fun i => getitem_bounds (CPF.VInt 87234238115)
                (CPF.Build [8; 7; 2; 3; 4; 2; 3; 8; 1; 1; 5]) i eq_refl) as G.
  split; [| split; [| split]].
  - apply (G 0). lia.
  - apply (G (-11)). lia.
  - apply (G 11). lia.
  - apply (G (-12)). lia.
Defined.

(** *** Order of the rejections *)

Section Rejections.


Lemma init_not_isdigit (raw : CPF.value) (s : string) :
  CPF.normalize raw = Ok s -> Py.isdigit s = false ->
  CPF.__init__ raw = Raise OnlyDigits.
Proof.
  intros Hn Hd. unfold CPF.__init__. rewrite Hn. simpl. now rewrite Hd.
Qed.

Lemma init_wrong_length (raw : CPF.value) (s : string) :
  CPF.normalize raw = Ok s -> Py.isdigit s = true ->
  String.length s <> 11%nat ->
  CPF.__init__ raw = Raise MaxDigits.
Proof.
  intros Hn Hd Hl. unfold CPF.__init__. rewrite Hn. simpl. rewrite Hd. simpl.
  apply Nat.eqb_neq in Hl. now rewrite Hl.
Qed.




Lemma normalized_of_normalize (raw : CPF.value) (s : string) :
  CPF.normalize raw = Ok s ->
  Spec.normalized raw = Some s /\ Py.ascii_only s = true.
Proof.
  intros H. split; [| exact (normalize_ascii raw s H)].
  destruct raw as [n | t | l | | c]; cbn [Spec.normalized CPF.normalize] in *;
    try discriminate H.
  - now injection H as <-.
  - unfold CPF.join_seq in H.
    destruct (forallb _ _); [now injection H as <- | discriminate H].
  - unfold CPF.join_seq in H.
    destruct (forallb _ _); [now injection H as <- | discriminate H].
Qed.

End Rejections.




(** ** Further properties of the code *)

(** *** Normalization of arbitrary strings *)

Section Separators.

Lemma strip_list (s : string) :
  list_ascii_of_string (Spec.strip s)
  = filter (fun c => negb (Ascii.eqb c "." || Ascii.eqb c "-"))
           (list_ascii_of_string s).
Proof. unfold Spec.strip. apply list_ascii_of_string_of_list_ascii. Qed.

Lemma not_separator_char (c : ascii) :
  CPF.not_separator (CPF.EStr (String c ""))
  = negb (Ascii.eqb c "." || Ascii.eqb c "-").
Proof.
  unfold CPF.not_separator, Py.str_in. cbn [existsb String.eqb].
  destruct (Ascii.eqb c "-"), (Ascii.eqb c "."); reflexivity.
Qed.

(** The pieces kept from a string are its characters other than the two
    separators, in order. *)
Lemma kept_chars (s : string) :
  map CPF.str_elem (filter CPF.not_separator (CPF.chars s))
  = map (fun c => String c "") (list_ascii_of_string (Spec.strip s)).
Proof.
  rewrite strip_list. unfold CPF.chars.
  induction (list_ascii_of_string s) as [|c l IH]; [reflexivity |].
  cbn [map filter]. rewrite not_separator_char.
  destruct (negb _); cbn [map CPF.str_elem]; now rewrite IH.
Qed.

Lemma concat_singletons (s : string) :
  concat "" (map (fun c => String c "") (list_ascii_of_string s)) = s.
Proof.
  induction s as [|c s IH]; [reflexivity |].
  cbn [list_ascii_of_string map concat].
  destruct (list_ascii_of_string s) eqn:E; cbn [map] in *.
  - destruct s; [reflexivity | discriminate E].
  - now rewrite IH.
Qed.

Lemma ascii_singletons (s : string) :
  forallb Py.ascii_only (map (fun c => String c "") (list_ascii_of_string s))
  = Py.ascii_only s.
Proof.
  unfold Py.ascii_only.
  induction (list_ascii_of_string s) as [|c l IH]; [reflexivity |].
  cbn [map forallb list_ascii_of_string]. rewrite IH.
  now rewrite andb_true_r.
Qed.

Lemma ascii_only_strip (s : string) :
  Py.ascii_only (Spec.strip s) = Py.ascii_only s.
Proof.
  unfold Py.ascii_only. rewrite strip_list.
  induction (list_ascii_of_string s) as [|c l IH]; [reflexivity |].
  cbn [filter forallb].
  destruct (Ascii.eqb_spec c ".") as [-> | Hdot]; [exact IH |].
  destruct (Ascii.eqb_spec c "-") as [-> | Hdash]; [exact IH |].
  cbn [orb negb forallb]. now rewrite IH.
Qed.

Lemma strip_idempotent (s : string) : Spec.strip (Spec.strip s) = Spec.strip s.
Proof.
  unfold Spec.strip at 1. rewrite strip_list.
  unfold Spec.strip. f_equal.
  induction (list_ascii_of_string s) as [|c l IH]; [reflexivity |].
  cbn [filter]. destruct (negb _) eqn:E; [| exact IH].
  cbn [filter]. now rewrite E, IH.
Qed.

Lemma strip_digits (s : string) :
  forallb Py.is_digit_char (list_ascii_of_string s) = true -> Spec.strip s = s.
Proof.
  induction s as [|c s IH]; [reflexivity |].
  cbn [list_ascii_of_string forallb]. intros H.
  apply andb_true_iff in H as [Hc Hs].
  now rewrite strip_digit, IH.
Qed.

(** What the first statement of the constructor makes of a string. *)
Lemma normalize_string (s : string) :
  CPF.normalize (CPF.VStr s)
  = if Py.ascii_only s then Ok (Spec.strip s) else Raise UnicodeError.
Proof.
  unfold CPF.normalize, CPF.join_seq.
  rewrite kept_chars, ascii_singletons, concat_singletons, ascii_only_strip.
  reflexivity.
Qed.

(** The constructor looks at its argument through [normalize] only. *)
Lemma init_normalize (raw1 raw2 : CPF.value) :
  CPF.normalize raw1 = CPF.normalize raw2 ->
  CPF.__init__ raw1 = CPF.__init__ raw2.
Proof. intros H. unfold CPF.__init__. now rewrite H. Qed.

End Separators.

(** X1. The string form of a returned instance is the normalized text of
    the argument it was built from, whether that was an integer, a string
    with separators or a sequence. *)
Theorem str_is_normalized_text (raw : CPF.value) (c : CPF.t) :
  CPF.__init__ raw = Ok c -> CPF.normalize raw = Ok (CPF.__str__ c).
Proof.
  intros H. apply init_inv in H as (s & Hn & Hd & _ & -> & _).
  now rewrite str_of_digits.
Qed.

Lemma str_is_normalized_text_witness :
  CPF.__init__ (CPF.VSeq [CPF.EStr "290"; CPF.EStr "."; CPF.EInt 571;
                          CPF.EStr "."; CPF.EInt 3; CPF.EInt 9; CPF.EInt 3;
                          CPF.EStr "-"; CPF.EStr "32"])
  = Ok (CPF.Build [2; 9; 0; 5; 7; 1; 3; 9; 3; 3; 2]) /\
  CPF.normalize (CPF.VSeq [CPF.EStr "290"; CPF.EStr "."; CPF.EInt 571;
                           CPF.EStr "."; CPF.EInt 3; CPF.EInt 9; CPF.EInt 3;
                           CPF.EStr "-"; CPF.EStr "32"])
  = Ok (CPF.__str__ (CPF.Build [2; 9; 0; 5; 7; 1; 3; 9; 3; 3; 2])).
Proof.
  split; [reflexivity |].
  apply str_is_normalized_text. reflexivity.
Defined.

(** X2. In a string the characters ['.'] and ['-'] are dropped wherever
    they stand: the constructor treats a string exactly as it treats the
    string with every separator removed.  The text checked is that
    stripped string when all characters are ASCII; otherwise a Unicode
    error is raised. *)
Theorem separators_ignored (s : string) :
  CPF.__init__ (CPF.VStr s) = CPF.__init__ (CPF.VStr (Spec.strip s)) /\
  CPF.normalize (CPF.VStr s)
  = (if Py.ascii_only s then Ok (Spec.strip s) else Raise UnicodeError) /\
  (if Py.ascii_only s then True
   else CPF.__init__ (CPF.VStr s) = Raise UnicodeError).
Proof.
  split; [| split].
  - apply init_normalize.
    now rewrite !normalize_string, ascii_only_strip, strip_idempotent.
  - apply normalize_string.
  - destruct (Py.ascii_only s) eqn:E; [exact I |].
    unfold CPF.__init__. now rewrite normalize_string, E.
Qed.

(** *** Round trips through the accessors *)

Section RoundTrips.

Lemma init_strip (s : string) :
  CPF.__init__ (CPF.VStr s) = CPF.__init__ (CPF.VStr (Spec.strip s)).
Proof.
  apply init_normalize.
  now rewrite !normalize_string, ascii_only_strip, strip_idempotent.
Qed.

Lemma list_eqb_refl (l : list Z) : Py.list_eqb l l = true.
Proof. now apply list_eqb_eq. Qed.

(** A string of eleven digits whose last two are the derived ones is
    accepted as it stands. *)
Lemma init_valid_string (s : string) :
  Py.isdigit s = true -> String.length s = 11%nat ->
  Spec.derive (firstn 9 (Spec.digits s)) = Spec.digits s ->
  CPF.__init__ (CPF.VStr s) = Ok (CPF.Build (Spec.digits s)).
Proof.
  intros Hd Hl Hok.
  rewrite (init_eleven_digits (CPF.VStr s) s);
    [| now apply normalize_digit_string, isdigit_forallb | exact Hd | exact Hl].
  now rewrite Hok, list_eqb_refl.
Qed.

Lemma strip_formated (s : string) :
  Py.isdigit s = true -> String.length s = 11%nat ->
  Spec.strip (CPF.formated (CPF.Build (Spec.digits s))) = s.
Proof.
  intros Hd Hl. unfold CPF.formated. rewrite (str_of_digits s Hd).
  pose proof (isdigit_forallb s Hd) as Hall.
  destruct (eleven_chars s Hl)
    as (a & b & c & d & e & f & g & h & i & j & k & ->).
  cbn [list_ascii_of_string forallb] in Hall.
  repeat (apply andb_true_iff in Hall as [? Hall]).
  change (Py.str_slice _ None (Some 3))
    with (String a (String b (String c ""))).
  change (Py.str_slice _ (Some 3) (Some 6))
    with (String d (String e (String f ""))).
  change (Py.str_slice _ (Some 6) (Some 9))
    with (String g (String h (String i ""))).
  change (Py.str_slice _ (Some 9) None) with (String j (String k "")).
  cbn [concat append].
  repeat first [ rewrite strip_digit by assumption
               | rewrite strip_dot
               | rewrite strip_dash ].
  reflexivity.
Qed.

(** The decimal text of a digit is one ASCII character. *)
Lemma ascii_str_digits (s : string) :
  forallb Py.is_digit_char (list_ascii_of_string s) = true ->
  forallb Py.ascii_only (map Py.str_int (Spec.digits s)) = true.
Proof.
  unfold Spec.digits. induction s as [|c s IH]; [reflexivity |].
  cbn [list_ascii_of_string map forallb]. intros H.
  apply andb_true_iff in H as [Hc Hs].
  destruct (digit_char_cases c Hc) as (Ha & _ & _ & _ & -> & _).
  unfold Py.ascii_only at 1. cbn [list_ascii_of_string forallb].
  rewrite Ha. cbn [andb]. exact (IH Hs).
Qed.

(** A sequence of integer digits normalizes to the string of those
    digits. *)
Lemma normalize_int_seq (s : string) :
  forallb Py.is_digit_char (list_ascii_of_string s) = true ->
  CPF.normalize (CPF.VSeq (map CPF.EInt (Spec.digits s))) = Ok s.
Proof.
  intros H. unfold CPF.normalize, CPF.join_seq.
  assert (forall l, map CPF.str_elem (filter CPF.not_separator (map CPF.EInt l))
                    = map Py.str_int l) as K.
  { induction l as [|x l IH]; [reflexivity |].
    cbn [map filter CPF.not_separator CPF.str_elem]. now rewrite IH. }
  rewrite K, ascii_str_digits, concat_str_digits by exact H. reflexivity.
Qed.

Lemma digit_of_value (d : Z) :
  0 <= d <= 9 ->
  exists c, Py.is_digit_char c = true /\ Spec.digit_value c = d.
Proof.
  intros H.
  assert (d = 0 \/ d = 1 \/ d = 2 \/ d = 3 \/ d = 4 \/
          d = 5 \/ d = 6 \/ d = 7 \/ d = 8 \/ d = 9) as C by lia.
  repeat destruct C as [C | C]; subst d;
    [ exists "0"%char | exists "1"%char | exists "2"%char | exists "3"%char
    | exists "4"%char | exists "5"%char | exists "6"%char | exists "7"%char
    | exists "8"%char | exists "9"%char ]; split; reflexivity.
Qed.

(** Every list of digits is the digit sequence of a string of digits. *)
Lemma digits_text (ds : list Z) :
  Forall (fun d => 0 <= d <= 9) ds ->
  exists s, forallb Py.is_digit_char (list_ascii_of_string s) = true /\
            Spec.digits s = ds.
Proof.
  induction 1 as [|d ds Hd _ (s & Hs & E)].
  - exists "". split; reflexivity.
  - destruct (digit_of_value d Hd) as (c & Hc & Ec).
    exists (String c s). unfold Spec.digits in *.
    cbn [list_ascii_of_string forallb map].
    rewrite Hc, Hs, Ec, E. split; reflexivity.
Qed.

Lemma digits_text_inj (s1 s2 : string) :
  forallb Py.is_digit_char (list_ascii_of_string s1) = true ->
  forallb Py.is_digit_char (list_ascii_of_string s2) = true ->
  Spec.digits s1 = Spec.digits s2 -> s1 = s2.
Proof.
  intros H1 H2 E.
  rewrite <- (concat_str_digits s1 H1), <- (concat_str_digits s2 H2).
  now rewrite E.
Qed.

End RoundTrips.

(** X3. Feeding the display form, or the string form, of a returned
    instance back to the constructor gives that same instance. *)
Theorem formated_round_trip (raw : CPF.value) (c : CPF.t) :
  CPF.__init__ raw = Ok c ->
  CPF.__init__ (CPF.VStr (CPF.formated c)) = Ok c /\
  CPF.__init__ (CPF.VStr (CPF.__str__ c)) = Ok c.
Proof.
  intros H. apply init_inv in H as (s & _ & Hd & Hl & -> & Hok).
  rewrite init_strip, strip_formated, str_of_digits by assumption.
  split; now apply init_valid_string.
Qed.

Lemma formated_round_trip_witness :
  CPF.__init__ (CPF.VInt 87234238115)
  = Ok (CPF.Build [8; 7; 2; 3; 4; 2; 3; 8; 1; 1; 5]) /\
  CPF.__init__
    (CPF.VStr (CPF.formated (CPF.Build [8; 7; 2; 3; 4; 2; 3; 8; 1; 1; 5])))
  = Ok (CPF.Build [8; 7; 2; 3; 4; 2; 3; 8; 1; 1; 5]).
Proof.
  split; [reflexivity |].
  apply (formated_round_trip (CPF.VInt 87234238115)). reflexivity.
Defined.

(** X4. The stored digit list of a returned instance, handed to the
    constructor as a sequence of integers, gives that same instance. *)
Theorem digit_list_round_trip (raw : CPF.value) (c : CPF.t) :
  CPF.__init__ raw = Ok c ->
  CPF.__init__ (CPF.VSeq (map CPF.EInt (CPF.cpf c))) = Ok c.
Proof.
  intros H. apply init_inv in H as (s & _ & Hd & Hl & -> & Hok).
  cbn [CPF.cpf].
  rewrite (init_eleven_digits _ s);
    [| now apply normalize_int_seq, isdigit_forallb | exact Hd | exact Hl].
  now rewrite Hok, list_eqb_refl.
Qed.

Lemma digit_list_round_trip_witness :
  CPF.__init__ (CPF.VStr "000.000.001-91")
  = Ok (CPF.Build [0; 0; 0; 0; 0; 0; 0; 0; 1; 9; 1]) /\
  CPF.__init__ (CPF.VSeq (map CPF.EInt [0; 0; 0; 0; 0; 0; 0; 0; 1; 9; 1]))
  = Ok (CPF.Build [0; 0; 0; 0; 0; 0; 0; 0; 1; 9; 1]).
Proof.
  split; [reflexivity |].
  apply (digit_list_round_trip (CPF.VStr "000.000.001-91")
           (CPF.Build [0; 0; 0; 0; 0; 0; 0; 0; 1; 9; 1])).
  reflexivity.
Defined.

(** X5. Every nine digits have a valid completion: the list the loop of
    [is_valid] builds from nine digits 0-9 has eleven digits 0-9 and is
    accepted by the constructor. *)
Theorem nine_digits_complete (first9 : list Z) :
  List.length first9 = 9%nat ->
  Forall (fun d => 0 <= d <= 9) first9 ->
  Forall (fun d => 0 <= d <= 9) (CPF.digits_loop first9) /\
  firstn 9 (CPF.digits_loop first9) = first9 /\
  CPF.__init__ (CPF.VSeq (map CPF.EInt (CPF.digits_loop first9)))
  = Ok (CPF.Build (CPF.digits_loop first9)).
Proof.
  intros Hl Hr. rewrite (digits_loop_spec first9 Hl).
  assert (Forall (fun d => 0 <= d <= 9) (Spec.derive first9)) as HR.
  { unfold Spec.derive, Spec.step. rewrite !Forall_app.
    repeat split; try exact Hr;
      repeat constructor; apply check_digit_range. }
  split; [exact HR |]. split; [now apply firstn_derive |].
  destruct (digits_text _ HR) as (s & Hs & E).
  assert (String.length s = 11%nat) as Hlen.
  { rewrite <- length_digits, E, length_derive, Hl. reflexivity. }
  rewrite <- E.
  rewrite (init_eleven_digits _ s);
    [| now apply normalize_int_seq
     | now apply forallb_digits_isdigit | exact Hlen].
  rewrite E, (firstn_derive first9 Hl). now rewrite list_eqb_refl.
Qed.

Lemma nine_digits_complete_witness :
  CPF.digits_loop [8; 7; 2; 3; 4; 2; 3; 8; 1]
  = [8; 7; 2; 3; 4; 2; 3; 8; 1; 1; 5] /\
  CPF.__init__
    (CPF.VSeq (map CPF.EInt (CPF.digits_loop [8; 7; 2; 3; 4; 2; 3; 8; 1])))
  = Ok (CPF.Build (CPF.digits_loop [8; 7; 2; 3; 4; 2; 3; 8; 1])).
Proof.
  split; [reflexivity |].
  apply (nine_digits_complete [8; 7; 2; 3; 4; 2; 3; 8; 1]).
  - reflexivity.
  - repeat constructor; lia.
Defined.

(** X6. The two last digits cannot be altered: a string of eleven digits
    that shares its first nine with a returned instance but is not its
    string form is rejected with the invalid-identifier error. *)
Theorem altered_check_digits_rejected (raw : CPF.value) (c : CPF.t) (s : string) :
  CPF.__init__ raw = Ok c ->
  String.length s = 11%nat ->
  forallb Py.is_digit_char (list_ascii_of_string s) = true ->
  firstn 9 (Spec.digits s) = firstn 9 (CPF.cpf c) ->
  s <> CPF.__str__ c ->
  CPF.__init__ (CPF.VStr s) = Raise InvalidIdentifier.
Proof.
  intros H Hl Hd Hf Hne.
  apply init_inv in H as (s0 & _ & Hd0 & Hl0 & -> & Hok).
  rewrite str_of_digits in Hne by exact Hd0. cbn [CPF.cpf] in Hf.
  rewrite (init_eleven_digits (CPF.VStr s) s);
    [| now apply normalize_digit_string
     | now apply forallb_digits_isdigit | exact Hl].
  rewrite Hf, Hok.
  destruct (Py.list_eqb _ _) eqn:E; [| reflexivity].
  apply list_eqb_eq in E. exfalso. apply Hne.
  apply digits_text_inj; [exact Hd | now apply isdigit_forallb | now symmetry].
Qed.

Lemma altered_check_digits_rejected_witness :
  CPF.__init__ (CPF.VStr "87234238115")
  = Ok (CPF.Build [8; 7; 2; 3; 4; 2; 3; 8; 1; 1; 5]) /\
  CPF.__init__ (CPF.VStr "87234238116") = Raise InvalidIdentifier.
Proof.
  split; [reflexivity |].
  apply (altered_check_digits_rejected (CPF.VStr "87234238115")
           (CPF.Build [8; 7; 2; 3; 4; 2; 3; 8; 1; 1; 5]) "87234238116");
    [reflexivity | reflexivity | reflexivity | reflexivity | discriminate].
Defined.

(** *** The loop and the validity property on their own *)

Section Loop.

Lemma next_digit_range (cpf : list Z) : 0 <= CPF.next_digit cpf <= 9.
Proof. rewrite next_digit_spec. apply check_digit_range. Qed.

Lemma extend_appends (fuel : nat) (cpf : list Z) :
  (11 - List.length cpf <= fuel)%nat ->
  exists tail,
    CPF.extend fuel cpf = cpf ++ tail /\
    List.length tail = (11 - List.length cpf)%nat /\
    Forall (fun d => 0 <= d <= 9) tail.
Proof.
  revert cpf. induction fuel as [|k IH]; intros cpf H; cbn [CPF.extend].
  - exists []. rewrite List.app_nil_r. cbn [List.length].
    split; [reflexivity | split; [lia | constructor]].
  - destruct (Z.ltb_spec (Py.len cpf) 11) as [Hlt | Hge]; unfold Py.len in *.
    + destruct (IH (cpf ++ [CPF.next_digit cpf])) as (tail & E & L & R).
      { rewrite length_app. cbn [List.length]. lia. }
      exists (CPF.next_digit cpf :: tail).
      rewrite E, <- app_assoc. rewrite length_app in L. cbn [List.length] in *.
      split; [reflexivity | split; [lia |]].
      constructor; [apply next_digit_range | exact R].
    + exists []. rewrite List.app_nil_r. cbn [List.length].
      split; [reflexivity | split; [lia | constructor]].
Qed.

Lemma slice_to_9 (l : list Z) : Py.slice l None (Some 9) = firstn 9 l.
Proof.
  unfold Py.slice, Py.bounds, Py.clip, Py.len.
  change (9 <? 0) with false. cbv iota. rewrite Z.sub_0_r.
  change (Z.to_nat 0) with 0%nat. cbn [skipn].
  destruct (Z.le_gt_cases 9 (Z.of_nat (List.length l))) as [H | H].
  - rewrite Z.min_l by exact H. reflexivity.
  - rewrite Z.min_r, Nat2Z.id by lia.
    rewrite firstn_all, firstn_all2 by lia. reflexivity.
Qed.

End Loop.

(** X7. Whatever list the loop of [is_valid] starts from, it only appends:
    the result is the starting list followed by [11 - len] further
    elements (none when the list already has eleven or more), each of them
    a digit 0-9. *)
Theorem digits_loop_appends (cpf : list Z) :
  exists tail,
    CPF.digits_loop cpf = cpf ++ tail /\
    List.length tail = (11 - List.length cpf)%nat /\
    Forall (fun d => 0 <= d <= 9) tail.
Proof. apply extend_appends. lia. Qed.

(** X8. On any instance whose digit list is not empty, the validity
    property returns a truth value without raising, whatever the list
    holds; it is true exactly when the list has eleven elements and equals
    the sequence derived from its first nine. *)
Theorem is_valid_outcome (self : CPF.t) :
  CPF.cpf self <> [] ->
  exists b,
    CPF.is_valid self = Ok b /\
    (b = true <->
     List.length (CPF.cpf self) = 11%nat /\
     Spec.derive (firstn 9 (CPF.cpf self)) = CPF.cpf self).
Proof.
  destruct self as [l]. cbn [CPF.cpf]. intros Hne.
  unfold CPF.is_valid. cbn [CPF.cpf].
  destruct l as [|x l']; [contradiction |].
  set (l := x :: l') in *.
  rewrite str_list_not_invalid, slice_to_9.
  eexists. split; [reflexivity |]. rewrite list_eqb_eq.
  destruct (extend_appends (11 - List.length (firstn 9 l)) (firstn 9 l)
              (Nat.le_refl _)) as (tail & E & L & _).
  fold (CPF.digits_loop (firstn 9 l)) in E.
  assert (List.length (CPF.digits_loop (firstn 9 l)) = 11%nat) as L11.
  { rewrite E, length_app, L.
    pose proof (firstn_le_length 9 l).
    rewrite length_firstn in *. lia. }
  split.
  - intros H. assert (List.length l = 11%nat) as Hl by congruence.
    split; [exact Hl |].
    rewrite <- digits_loop_spec; [exact H |].
    rewrite length_firstn, Hl. reflexivity.
  - intros [Hl H].
    rewrite digits_loop_spec; [exact H |].
    rewrite length_firstn, Hl. reflexivity.
Qed.

Lemma is_valid_outcome_witness :
  CPF.cpf (CPF.Build [1; 2; 3]) <> [] /\
  exists b,
    CPF.is_valid (CPF.Build [1; 2; 3]) = Ok b /\
    (b = true <->
     List.length (CPF.cpf (CPF.Build [1; 2; 3])) = 11%nat /\
     Spec.derive (firstn 9 (CPF.cpf (CPF.Build [1; 2; 3])))
     = CPF.cpf (CPF.Build [1; 2; 3])).
Proof.
  split; [discriminate |].
  apply (is_valid_outcome (CPF.Build [1; 2; 3])). discriminate.
Defined.

(** *** Indexing against the string form *)

Lemma get_nth_error (s : string) (n : nat) :
  String.get n s = nth_error (list_ascii_of_string s) n.
Proof.
  revert n. induction s as [|c s IH]; intros [|n]; cbn; auto.
Qed.

(** X9. For a returned instance and [0 <= i <= 10], the element at index
    [i] is the value of the character at position [i] of the string form,
    which is a decimal digit. *)
Theorem getitem_reads_str (raw : CPF.value) (c : CPF.t) (i : Z) :
  CPF.__init__ raw = Ok c ->
  0 <= i <= 10 ->
  exists ch,
    String.get (Z.to_nat i) (CPF.__str__ c) = Some ch /\
    Py.is_digit_char ch = true /\
    CPF.__getitem__ c i = Ok (Spec.digit_value ch).
Proof.
  intros H Hi. apply init_inv in H as (s & _ & Hd & Hl & -> & _).
  rewrite str_of_digits by exact Hd. rewrite get_nth_error.
  unfold CPF.__getitem__, Py.getitem, Py.len. cbn [CPF.cpf].
  rewrite length_digits, Hl. change (Z.of_nat 11) with 11.
  destruct (Z.ltb_spec i 0); [lia |].
  destruct (Z.leb_spec 0 i); [| lia].
  destruct (Z.ltb_spec i 11); [| lia]. cbn [andb].
  destruct (nth_error (list_ascii_of_string s) (Z.to_nat i)) as [ch|] eqn:E.
  - exists ch. split; [reflexivity |]. split.
    + pose proof (isdigit_forallb s Hd) as A. rewrite forallb_forall in A.
      eapply A, nth_error_In, E.
    + f_equal. apply nth_error_nth. unfold Spec.digits.
      now apply map_nth_error.
  - apply nth_error_None in E. rewrite length_list_ascii in E. lia.
Qed.

Lemma getitem_reads_str_witness :
  CPF.__init__ (CPF.VInt 29057139332)
  = Ok (CPF.Build [2; 9; 0; 5; 7; 1; 3; 9; 3; 3; 2]) /\
  0 <= 3 <= 10 /\
  exists ch,
    String.get (Z.to_nat 3) (CPF.__str__ (CPF.Build [2; 9; 0; 5; 7; 1; 3; 9; 3; 3; 2]))
    = Some ch /\
    Py.is_digit_char ch = true /\
    CPF.__getitem__ (CPF.Build [2; 9; 0; 5; 7; 1; 3; 9; 3; 3; 2]) 3
    = Ok (Spec.digit_value ch).
Proof.
  split; [reflexivity |]. split; [lia |].
  apply (getitem_reads_str (CPF.VInt 29057139332)); [reflexivity | lia].
Defined.

(** *** What the constructor can raise *)

(** X10. The constructor either returns an instance or raises one of five
    things: the three rejections (only digits, length, invalid), a Unicode
    error, or an attribute error.  The [ValueError]s of [is_valid] and of
    [int], and [IndexError], never leave it.  The attribute error is
    raised exactly for an argument that is not an integer, a string or a
    sequence. *)
Theorem constructor_outcomes (raw : CPF.value) :
  ((exists c, CPF.__init__ raw = Ok c) \/
   CPF.__init__ raw = Raise OnlyDigits \/
   CPF.__init__ raw = Raise MaxDigits \/
   CPF.__init__ raw = Raise InvalidIdentifier \/
   CPF.__init__ raw = Raise UnicodeError \/
   CPF.__init__ raw = Raise AttributeError) /\
  (CPF.__init__ raw = Raise AttributeError <->
   raw = CPF.VNone \/ exists c, raw = CPF.VCPF c).
Proof.
  assert (forall l, CPF.join_seq l = Raise UnicodeError \/
                    exists s, CPF.join_seq l = Ok s) as J.
  { intros l. unfold CPF.join_seq. destruct (forallb _ _); eauto. }
  assert ((exists s, CPF.normalize raw = Ok s) \/
          CPF.normalize raw = Raise UnicodeError \/
          (CPF.normalize raw = Raise AttributeError /\
           (raw = CPF.VNone \/ exists c, raw = CPF.VCPF c))) as N.
  { destruct raw as [n | t | l | | c]; cbn [CPF.normalize].
    - left. eexists. reflexivity.
    - destruct (J (CPF.chars t)); auto.
    - destruct (J l); auto.
    - right. right. split; [reflexivity | now left].
    - right. right. split; [reflexivity | right; now exists c]. }
  assert (forall s, CPF.normalize raw = Ok s ->
            (exists c, CPF.__init__ raw = Ok c) \/
            CPF.__init__ raw = Raise OnlyDigits \/
            CPF.__init__ raw = Raise MaxDigits \/
            CPF.__init__ raw = Raise InvalidIdentifier) as K.
  { intros s Hn.
    destruct (Py.isdigit s) eqn:Hd;
      [| right; left; now apply (init_not_isdigit raw s)].
    destruct (Nat.eq_dec (String.length s) 11) as [Hl | Hl];
      [| right; right; left; now apply (init_wrong_length raw s)].
    rewrite (init_eleven_digits raw s Hn Hd Hl).
    destruct (Py.list_eqb _ _); eauto. }
  destruct N as [(s & Hn) | [Hn | (Hn & Hraw)]].
  - split; [destruct (K s Hn) as [|[|[|]]]; auto |].
    split.
    + intros E. destruct (K s Hn) as [(c & H)|[H|[H|H]]];
        rewrite H in E; discriminate E.
    + intros [-> | (c & ->)]; discriminate Hn.
  - assert (CPF.__init__ raw = Raise UnicodeError) as E
        by (unfold CPF.__init__; now rewrite Hn).
    split; [auto 10 |]. rewrite E. split; [discriminate |].
    intros [-> | (c & ->)]; discriminate Hn.
  - assert (CPF.__init__ raw = Raise AttributeError) as E
        by (unfold CPF.__init__; now rewrite Hn).
    split; [auto 10 |]. rewrite E. split; auto.
Qed.

(** *** Integer arguments *)

Section Integers.

Lemma of_uint_acc_upper (d : uint) (acc : positive) :
  Z.pos (Pos.of_uint_acc d acc)
  < (Z.pos acc + 1) * 10 ^ Z.of_nat (nb_digits d).
Proof.
  revert acc. induction d; intros acc; cbn [Pos.of_uint_acc nb_digits];
    try (rewrite Nat2Z.inj_succ, Z.pow_succ_r by lia;
         match goal with |- Z.pos (Pos.of_uint_acc _ ?a) < _ =>
           specialize (IHd a) end;
         pose proof (Z.pow_pos_nonneg 10 (Z.of_nat (nb_digits d))
                       ltac:(lia) ltac:(lia));
         nia).
  simpl. lia.
Qed.

(** A positive number is below ten to the number of its decimal digits. *)
Lemma to_uint_upper (p : positive) :
  Z.pos p < 10 ^ Z.of_nat (nb_digits (Pos.to_uint p)).
Proof.
  pose proof (Unsigned.of_to p) as Hof.
  pose proof (to_uint_unorm p) as Hn.
  destruct (Pos.to_uint p) as [|l|l|l|l|l|l|l|l|l|l] eqn:E;
    cbn [nb_digits Pos.of_uint] in *.
  1:{ discriminate Hof. }
  1:{ exfalso. rewrite unorm_D0 in Hn. destruct l.
      1:{ apply (Unsigned.to_uint_nonzero p). exact E. }
      all: match type of Hn with unorm ?u = _ =>
             assert (u <> Nil) as Hu by discriminate;
             pose proof (nb_digits_unorm u Hu) as Hle; rewrite Hn in Hle;
             cbn [nb_digits] in Hle; lia end. }
  all: injection Hof as Hof;
    match type of Hof with Pos.of_uint_acc _ ?a = _ =>
      pose proof (of_uint_acc_upper l a) as Hup end;
    rewrite Hof in Hup;
    rewrite Nat2Z.inj_succ, Z.pow_succ_r by lia;
    pose proof (Z.pow_pos_nonneg 10 (Z.of_nat (nb_digits l))
                  ltac:(lia) ltac:(lia));
    nia.
Qed.

(** The decimal text of a positive number does not start with a zero. *)
Lemma str_int_head (p : positive) :
  exists ch rest,
    Py.str_int (Z.pos p) = String ch rest /\ Spec.digit_value ch <> 0.
Proof.
  rewrite str_int_pos.
  pose proof (to_uint_unorm p) as Hn.
  destruct (Pos.to_uint p) as [|l|l|l|l|l|l|l|l|l|l] eqn:E.
  1:{ exfalso. apply (Unsigned.to_uint_nonnil p). exact E. }
  1:{ exfalso. rewrite unorm_D0 in Hn. destruct l.
      1:{ apply (Unsigned.to_uint_nonzero p). exact E. }
      all: match type of Hn with unorm ?u = _ =>
             assert (u <> Nil) as Hu by discriminate;
             pose proof (nb_digits_unorm u Hu) as Hle; rewrite Hn in Hle;
             cbn [nb_digits] in Hle; lia end. }
  all: cbn [NilEmpty.string_of_uint]; do 2 eexists;
    (split; [reflexivity | discriminate]).
Qed.

(** Bounds of a natural number from the length of its decimal text. *)
Lemma str_int_eleven (n : Z) :
  0 <= n -> String.length (Py.str_int n) = 11%nat -> 10 ^ 10 <= n < 10 ^ 11.
Proof.
  intros H0 Hl. split.
  - destruct (Z.le_gt_cases (10 ^ 10) n) as [|Hlt]; [assumption |].
    pose proof (length_str_int n 9 (conj H0 Hlt)). lia.
  - destruct n as [|p|p]; [discriminate Hl | | lia].
    pose proof (to_uint_upper p) as Hup.
    rewrite str_int_pos, uint_text_length in Hl. now rewrite Hl in Hup.
Qed.

Lemma str_int_long (n : Z) :
  10 ^ 11 <= n -> (11 < String.length (Py.str_int n))%nat.
Proof.
  intros H. destruct n as [|p|p]; [simpl in H; lia | | lia].
  pose proof (to_uint_upper p) as Hup.
  rewrite str_int_pos, uint_text_length.
  destruct (Nat.le_gt_cases (nb_digits (Pos.to_uint p)) 11) as [Hle | Hgt];
    [| exact Hgt].
  exfalso.
  assert (10 ^ Z.of_nat (nb_digits (Pos.to_uint p)) <= 10 ^ 11)
    by (apply Z.pow_le_mono_r; lia).
  lia.
Qed.

Lemma str_int_abs (n : Z) : Spec.strip (Py.str_int n) = Py.str_int (Z.abs n).
Proof.
  destruct n as [|p|p]; [reflexivity | |].
  - apply strip_digits, isdigit_forallb, isdigit_str_int. lia.
  - change (Py.str_int (Z.neg p)) with (String "-" (Py.str_int (Z.pos p))).
    rewrite strip_dash.
    apply strip_digits, isdigit_forallb, isdigit_str_int. lia.
Qed.

End Integers.

(** X11. An instance built from an integer [n] has [n] between 10^10 and
    10^11 - 1, its string form is the decimal text of [n], and its first
    digit is not zero: identifiers that start with a zero cannot be built
    from an integer. *)
Theorem int_instance_range (n : Z) (c : CPF.t) :
  CPF.__init__ (CPF.VInt n) = Ok c ->
  10 ^ 10 <= n < 10 ^ 11 /\
  CPF.__str__ c = Py.str_int n /\
  nth 0 (CPF.cpf c) 0 <> 0.
Proof.
  intros H. apply init_inv in H as (s & Hn & Hd & Hl & -> & _).
  cbn [CPF.normalize] in Hn. injection Hn as <-.
  assert (0 <= n) as H0.
  { destruct (Z.le_gt_cases 0 n) as [|Hneg]; [assumption |].
    rewrite isdigit_str_int_neg in Hd by lia. discriminate Hd. }
  pose proof (str_int_eleven n H0 Hl) as Hr.
  split; [exact Hr |]. split; [now apply str_of_digits |].
  destruct n as [|p|p]; [simpl in Hr; lia | | lia].
  destruct (str_int_head p) as (ch & rest & E & Hch).
  cbn [CPF.cpf]. rewrite E. exact Hch.
Qed.

Lemma int_instance_range_witness :
  CPF.__init__ (CPF.VInt 87234238115)
  = Ok (CPF.Build [8; 7; 2; 3; 4; 2; 3; 8; 1; 1; 5]) /\
  10 ^ 10 <= 87234238115 < 10 ^ 11 /\
  nth 0 (CPF.cpf (CPF.Build [8; 7; 2; 3; 4; 2; 3; 8; 1; 1; 5])) 0 <> 0.
Proof.
  split; [reflexivity |].
  pose proof (int_instance_range 87234238115
                (CPF.Build [8; 7; 2; 3; 4; 2; 3; 8; 1; 1; 5]) eq_refl)
    as (H1 & _ & H3).
  exact (conj H1 H3).
Defined.

(** X12. An integer of twelve or more digits is rejected with the length
    error. *)
Theorem long_int_max_digits (n : Z) :
  10 ^ 11 <= n -> CPF.__init__ (CPF.VInt n) = Raise MaxDigits.
Proof.
  intros H.
  apply (init_wrong_length (CPF.VInt n) (Py.str_int n) eq_refl).
  - apply isdigit_str_int. lia.
  - pose proof (str_int_long n H). lia.
Qed.

Lemma long_int_max_digits_witness :
  10 ^ 11 <= 872342381150 /\
  CPF.__init__ (CPF.VInt 872342381150) = Raise MaxDigits.
Proof.
  split; [lia |]. apply (long_int_max_digits 872342381150). lia.
Defined.

(** X13. The decimal text of an integer, given as a string, is treated as
    the absolute value of that integer given as an integer: a minus sign
    in a string is dropped as a separator, while a negative integer is
    rejected for it. *)
Theorem int_text_is_abs (n : Z) :
  CPF.__init__ (CPF.VStr (Py.str_int n)) = CPF.__init__ (CPF.VInt (Z.abs n)).
Proof.
  apply init_normalize. rewrite normalize_string.
  rewrite (normalize_ascii (CPF.VInt n) (Py.str_int n) eq_refl).
  now rewrite str_int_abs.
Qed.
